(** * portfolio-app: the Gemini adapter and the two JSON routes of [app.py]

    A shallow embedding of [src/app.py].  Python values that come out of a
    JSON parser are a small inductive type; the Python operations the file
    applies to them ([.get], subscripting, [in], [or], truthiness, [.strip])
    are total functions that return either a value or the exception Python
    raises.  The one outbound HTTP call is recorded in a log that is threaded
    through the handlers, so that "no network call" is a statement about the
    log. *)

From Stdlib Require Import ZArith NArith List String Ascii Bool Lia.
From Stdlib Require Import Floats.SpecFloat.
From Stdlib Require Import DecimalString.
Import ListNotations.

Set Warnings "-register-all".

Open Scope Z_scope.

(** ** Python strings

    A Python [str] is a sequence of Unicode code points. *)

Definition char := N.
Definition pystr := list char.

(** [u "lit"] is the Python string whose code points are the bytes of an
    ASCII literal. *)
Definition u (s : string) : pystr := map N_of_ascii (list_ascii_of_string s).

Fixpoint str_eqb (a b : pystr) : bool :=
  match a, b with
  | [], [] => true
  | x :: a', y :: b' => N.eqb x y && str_eqb a' b'
  | _, _ => false
  end.

Fixpoint startswith (p s : pystr) : bool :=
  match p, s with
  | [], _ => true
  | x :: p', y :: s' => N.eqb x y && startswith p' s'
  | _ :: _, [] => false
  end.

(** [p in s] on two strings: substring search. *)
Fixpoint str_contains (p s : pystr) : bool :=
  startswith p s ||
  match s with
  | [] => false
  | _ :: s' => str_contains p s'
  end.

(** The code points [str.strip()] removes when called without argument
    (CPython's [_PyUnicode_IsWhitespace]). *)
Definition isspace (c : char) : bool :=
  ((9 <=? c) && (c <=? 13) || (28 <=? c) && (c <=? 32) ||
   (c =? 133) || (c =? 160) || (c =? 5760) ||
   (8192 <=? c) && (c <=? 8202) || (c =? 8232) || (c =? 8233) ||
   (c =? 8239) || (c =? 8287) || (c =? 12288))%N.

Fixpoint lstrip (s : pystr) : pystr :=
  match s with
  | [] => []
  | c :: s' => if isspace c then lstrip s' else s
  end.

Definition rstrip (s : pystr) : pystr := rev (lstrip (rev s)).

Definition strip (s : pystr) : pystr := rstrip (lstrip s).

(** Decimal rendering of an integer, as an f-string does it. *)
Definition str_of_Z (z : Z) : pystr := u (NilZero.string_of_int (Z.to_int z)).

(** ** JSON-shaped Python values

    What [json.loads] (and so [resp.json()] and [request.get_json()]) can
    return.  A [dict] is kept as the list of its items in insertion order;
    its keys are strings. *)

Inductive json : Type :=
| JNull
| JBool (b : bool)
| JInt (z : Z)
| JFloat (f : spec_float)
| JStr (s : pystr)
| JList (l : list json)
| JObj (o : list (pystr * json)).

Definition dict := list (pystr * json).

Fixpoint dict_get (k : pystr) (o : dict) : option json :=
  match o with
  | [] => None
  | (k', v) :: o' => if str_eqb k' k then Some v else dict_get k o'
  end.

(** Python truthiness ([bool(v)]). *)
Definition truthy (v : json) : bool :=
  match v with
  | JNull => false
  | JBool b => b
  | JInt z => negb (z =? 0)
  | JFloat (S754_zero _) => false
  | JFloat _ => true
  | JStr [] => false
  | JStr (_ :: _) => true
  | JList [] => false
  | JList (_ :: _) => true
  | JObj [] => false
  | JObj (_ :: _) => true
  end.

(** [a or b]. *)
Definition py_or (a b : json) : json := if truthy a then a else b.

(** ** Exceptions and the handler monad *)

Inductive exn : Type :=
| AttributeError
| TypeError
| KeyError
| IndexError
| RequestException (description : pystr).

Inductive outcome (A : Type) : Type :=
| Returned (a : A)
| Raised (e : exn).

Arguments Returned {A} a.
Arguments Raised {A} e.

(** The arguments of one [requests.post] call. *)
Record post_args : Type := {
  post_url : pystr;
  post_params : list (pystr * pystr);
  post_json : json;
  post_timeout : Z
}.

(** The outbound calls made so far, oldest first. *)
Definition net_log := list post_args.

Definition py (A : Type) : Type := net_log -> outcome A * net_log.

Definition ret {A} (a : A) : py A := fun log => (Returned a, log).

Definition raise {A} (e : exn) : py A := fun log => (Raised e, log).

Definition bind {A B} (m : py A) (k : A -> py B) : py B :=
  fun log =>
    match m log with
    | (Returned a, log') => k a log'
    | (Raised e, log') => (Raised e, log')
    end.

Definition lift {A} (r : outcome A) : py A := fun log => (r, log).

(** [try: body / except requests.exceptions.RequestException as e: handler e]:
    every other exception passes through. *)
Definition try_except_request {A} (body : py A) (handler : pystr -> py A) : py A :=
  fun log =>
    match body log with
    | (Raised (RequestException d), log') => handler d log'
    | r => r
    end.

Declare Scope py_scope.
Delimit Scope py_scope with py.
Notation "x <- m ;; k" := (bind m (fun x => k))
  (at level 61, m at next level, right associativity) : py_scope.
Notation "m ;;; k" := (bind m (fun _ => k))
  (at level 61, right associativity) : py_scope.
Open Scope py_scope.

(** ** The Python operations used on parsed JSON *)

(** [o.get(k, default)]: only a [dict] has the method. *)
Definition py_get (o : json) (k : pystr) (default : json) : outcome json :=
  match o with
  | JObj d =>
      match dict_get k d with
      | Some v => Returned v
      | None => Returned default
      end
  | _ => Raised AttributeError
  end.

Inductive subscript : Type :=
| SubInt (i : Z)
| SubStr (k : pystr).

Definition seq_index {A} (l : list A) (i : Z) : option A :=
  let n := Z.of_nat (List.length l) in
  if (0 <=? i) && (i <? n) then nth_error l (Z.to_nat i)
  else if (- n <=? i) && (i <? 0) then nth_error l (Z.to_nat (n + i))
  else None.

(** [o[k]].  The keys of a parsed JSON object are strings, so an integer
    subscript on a [dict] is a missing key. *)
Definition py_getitem (o : json) (k : subscript) : outcome json :=
  match o, k with
  | JList l, SubInt i =>
      match seq_index l i with
      | Some v => Returned v
      | None => Raised IndexError
      end
  | JStr s, SubInt i =>
      match seq_index s i with
      | Some c => Returned (JStr [c])
      | None => Raised IndexError
      end
  | JObj d, SubStr key =>
      match dict_get key d with
      | Some v => Returned v
      | None => Raised KeyError
      end
  | JObj _, SubInt _ => Raised KeyError
  | _, _ => Raised TypeError
  end.

Definition json_eq_str (k : pystr) (v : json) : bool :=
  match v with
  | JStr s => str_eqb s k
  | _ => false
  end.

(** [k in o] for a string [k]: key test on a [dict], element test on a
    [list], substring test on a [str]; the other values are not containers. *)
Definition py_in (k : pystr) (o : json) : outcome bool :=
  match o with
  | JObj d =>
      match dict_get k d with
      | Some _ => Returned true
      | None => Returned false
      end
  | JList l => Returned (existsb (json_eq_str k) l)
  | JStr s => Returned (str_contains k s)
  | _ => Raised TypeError
  end.

Definition str_truthy (s : pystr) : bool := truthy (JStr s).

(** [a or b] on two strings. *)
Definition str_or (a b : pystr) : pystr :=
  if str_truthy a then a else b.

(** [o.strip()]: only a [str] has the method. *)
Definition py_strip (o : json) : outcome pystr :=
  match o with
  | JStr s => Returned (strip s)
  | _ => Raised AttributeError
  end.

(** ** The [requests] library, as far as [call_gemini] uses it *)

Inductive body : Type :=
| JsonBody (data : json)
| NotJson (decode_error : pystr).

Record response : Type := {
  status_code : Z;
  reason : pystr;
  url : pystr;
  content : body
}.

(** What one [requests.post] does: it either raises a [RequestException]
    (connection error, timeout, ...) whose [str()] is [description], or it
    returns a response. *)
Inductive post_result : Type :=
| PostRaised (description : pystr)
| Responded (r : response).

(** [Response.raise_for_status()]: an [HTTPError] (a [RequestException]) for
    the statuses 400 to 599, nothing otherwise. *)
Definition raise_for_status (r : response) : outcome unit :=
  if (400 <=? status_code r) && (status_code r <? 500) then
    Raised (RequestException
      (str_of_Z (status_code r) ++ u " Client Error: " ++ reason r ++
       u " for url: " ++ url r))
  else if (500 <=? status_code r) && (status_code r <? 600) then
    Raised (RequestException
      (str_of_Z (status_code r) ++ u " Server Error: " ++ reason r ++
       u " for url: " ++ url r))
  else Returned tt.

(** [Response.json()]: the parsed body, or [requests.exceptions.JSONDecodeError]
    (a [RequestException]) when the body is not JSON.  A parse that the
    interpreter itself cuts short (an integer literal over its digit limit,
    nesting beyond the recursion limit) is outside [body]: what is stated of
    a [JsonBody] is stated of a parse that returned. *)
Definition response_json (r : response) : outcome json :=
  match content r with
  | JsonBody data => Returned data
  | NotJson d => Raised (RequestException d)
  end.

(** ** [app.py] *)

Definition GEMINI_MODEL_URL : pystr :=
  u "https://generativestorybooks.googleapis.com/v1beta/models/" ++
  u "gemini-2.5-flash-preview-09-2025:generateContent".

Definition config_error : pystr :=
  u "Error: GEMINI_API_KEY is not set. " ++
  u "Set it in your environment to enable AI features.".

Definition shape_error : pystr := u "Error: No valid text returned from Gemini.".

Definition transport_prefix : pystr := u "Error calling Gemini API: ".

Definition bio_system_prompt : pystr :=
  u "You are a professional resume writer. Write an engaging, first-person " ++
  u "'About Me' section for a personal portfolio. The tone should be passionate " ++
  u "and professional. Base it on the following keywords. Keep it to 3-4 " ++
  u "concise paragraphs.".

Definition project_system_prompt : pystr :=
  u "You are a tech mentor. Suggest a new, impressive portfolio project idea. " ++
  u "Respond with a title, a 1-2 sentence description, and 3-4 key technologies. " ++
  u "Format your response in simple HTML " ++
  u "(e.g., <h3>Title</h3><p>Description</p>" ++
  u "<p><strong>Tech:</strong> Tech 1, Tech 2</p>).".

Definition default_role : pystr := u "AI Software Engineer".

(** The body of a request, as [request.get_json(silent=True)] sees it: with
    [silent=True] a body that is not JSON gives [None] instead of an error.
    Both constructors are parses that returned; a body nested beyond the
    interpreter's recursion limit is outside [request_body]. *)
Inductive request_body : Type :=
| Body (j : json)
| Unparseable.

Definition get_json_silent (request : request_body) : json :=
  match request with
  | Body j => j
  | Unparseable => JNull
  end.

(** What a view function returns: the [jsonify] body and the status (200
    when the view gives none). *)
Definition view_result : Type := json * Z.

Section App.

(** [os.environ.get("GEMINI_API_KEY")], read once at import. *)
Variable GEMINI_API_KEY : option pystr.

(** The network: what the upstream answers to a given call. *)
Variable upstream : post_args -> post_result.

Definition requests_post (args : post_args) : py response :=
  fun log =>
    (match upstream args with
     | PostRaised d => Raised (RequestException d)
     | Responded r => Returned r
     end, log ++ [args]).

Definition gemini_payload (user_query system_prompt : pystr) : json :=
  JObj [ (u "contents",
          JList [ JObj [ (u "parts", JList [ JObj [ (u "text", JStr user_query) ] ]) ] ]);
         (u "systemInstruction",
          JObj [ (u "parts", JList [ JObj [ (u "text", JStr system_prompt) ] ]) ]) ].

Definition gemini_request (key user_query system_prompt : pystr) : post_args :=
  {| post_url := GEMINI_MODEL_URL;
     post_params := [ (u "key", key) ];
     post_json := gemini_payload user_query system_prompt;
     post_timeout := 30 |}.

Definition call_gemini (user_query system_prompt : pystr) : py json :=
  match GEMINI_API_KEY with
  | None | Some [] => ret (JStr config_error)
  | Some key =>
      try_except_request
        (resp <- requests_post (gemini_request key user_query system_prompt) ;;
         lift (raise_for_status resp) ;;;
         data <- lift (response_json resp) ;;
         candidates <- lift (py_get data (u "candidates") JNull) ;;
         candidate <- lift (py_getitem (py_or candidates (JList [JObj []])) (SubInt 0)) ;;
         content <- lift (py_get candidate (u "content") (JObj [])) ;;
         parts <- lift (py_get content (u "parts") (JList [])) ;;
         has_text <- (if truthy parts
                      then part <- lift (py_getitem parts (SubInt 0)) ;;
                           lift (py_in (u "text") part)
                      else ret false) ;;
         if has_text
         then part <- lift (py_getitem parts (SubInt 0)) ;;
              lift (py_getitem part (SubStr (u "text")))
         else ret (JStr shape_error))
        (fun e => ret (JStr (transport_prefix ++ e)))
  end.

Definition api_bio (request : request_body) : py view_result :=
  let data := py_or (get_json_silent request) (JObj []) in
  field <- lift (py_get data (u "keywords") (JStr [])) ;;
  keywords <- lift (py_strip field) ;;
  if negb (str_truthy keywords)
  then ret (JObj [ (u "error", JStr (u "No keywords provided.")) ], 400)
  else
    let user_query := u "Keywords: " ++ keywords in
    text <- call_gemini user_query bio_system_prompt ;;
    ret (JObj [ (u "text", text) ], 200).

Definition api_project (request : request_body) : py view_result :=
  let data := py_or (get_json_silent request) (JObj []) in
  field <- lift (py_get data (u "role") (JStr default_role)) ;;
  stripped <- lift (py_strip field) ;;
  let role := str_or stripped default_role in
  let user_query := u "Role: " ++ role in
  html <- call_gemini user_query project_system_prompt ;;
  ret (JObj [ (u "html", html) ], 200).

End App.

(** ** Flask's dispatch

    A view's return value becomes the response; an exception that escapes a
    view is turned by Flask into its generic 500 page. *)

Record http_response : Type := {
  status : Z;
  payload : option json
}.

Definition serve (r : outcome view_result) : http_response :=
  match r with
  | Returned (b, s) => {| status := s; payload := Some b |}
  | Raised _ => {| status := 500; payload := None |}
  end.

(** The [dict] that [data] is bound to in a view, when it is one. *)
Definition request_dict (request : request_body) : option dict :=
  match py_or (get_json_silent request) (JObj []) with
  | JObj d => Some d
  | _ => None
  end.

(** ** The specification's reading of the upstream document

    The path "first candidate, content, first part, text" as a chain of
    optional lookups, each of which expects the container the upstream
    contract names. *)

Definition spec_text_path (data : json) : option json :=
  match data with
  | JObj d =>
      match dict_get (u "candidates") d with
      | Some (JList (JObj candidate :: _)) =>
          match dict_get (u "content") candidate with
          | Some (JObj content) =>
              match dict_get (u "parts") content with
              | Some (JList (JObj part :: _)) => dict_get (u "text") part
              | _ => None
              end
          | _ => None
          end
      | _ => None
      end
  | _ => None
  end.

(** A key that is missing, or present with a falsy value ([null], [[]], ...). *)
Definition absent_or_falsy (o : option json) : bool :=
  match o with
  | None => true
  | Some v => negb (truthy v)
  end.

(** The four breaks of the path that the specification names: no
    candidates, no content in the first candidate, no parts in the content,
    no text in the first part. *)
Definition shape_break (data : json) : bool :=
  match data with
  | JObj d =>
      match dict_get (u "candidates") d with
      | Some (JList (JObj candidate :: _)) =>
          match dict_get (u "content") candidate with
          | None => true
          | Some (JObj content) =>
              match dict_get (u "parts") content with
              | Some (JList (JObj part :: _)) =>
                  match dict_get (u "text") part with
                  | None => true
                  | Some _ => false
                  end
              | parts => absent_or_falsy parts
              end
          | Some _ => false
          end
      | candidates => absent_or_falsy candidates
      end
  | _ => false
  end.

(** The user query the specification gives for the project route, from the
    [role] field of the request: the default role when the field is missing
    or blank, the trimmed field otherwise; nothing for a field that is not a
    string. *)
Definition spec_project_query (field : option json) : option pystr :=
  match field with
  | None => Some (u "Role: AI Software Engineer")
  | Some (JStr s) =>
      match strip s with
      | [] => Some (u "Role: AI Software Engineer")
      | _ :: _ => Some (u "Role: " ++ strip s)
      end
  | Some _ => None
  end.

Definition is_string (v : json) : bool :=
  match v with
  | JStr _ => true
  | _ => false
  end.

(** Fixtures: an upstream that always gives the same answer. *)
Definition mock_upstream (r : post_result) : post_args -> post_result := fun _ => r.

Definition json_response (code : Z) (phrase : pystr) (data : json) : response :=
  {| status_code := code; reason := phrase; url := GEMINI_MODEL_URL; content := JsonBody data |}.

Definition demo_key : pystr := u "test-key".

Definition demo_query : pystr := u "Keywords: golang, distributed systems".

Definition no_candidates_body : json := JObj [ (u "candidates", JList []) ].

Definition hello_body : json :=
  JObj [ (u "candidates",
          JList [ JObj [ (u "content",
                          JObj [ (u "parts", JList [ JObj [ (u "text", JStr (u "Hello")) ] ]) ]) ] ]) ].

Definition null_content_body : json :=
  JObj [ (u "candidates", JList [ JObj [ (u "content", JNull) ] ]) ].

Definition numeric_text_body : json :=
  JObj [ (u "candidates",
          JList [ JObj [ (u "content",
                          JObj [ (u "parts", JList [ JObj [ (u "text", JInt 5) ] ]) ]) ] ]) ].

Definition no_keywords_body : json :=
  JObj [ (u "error", JStr (u "No keywords provided.")) ].

Definition is_2xx (code : Z) : Prop := 200 <= code < 300.

Definition engineer_body : json :=
  JObj [ (u "candidates",
          JList [ JObj [ (u "content",
                          JObj [ (u "parts",
                                  JList [ JObj [ (u "text",
                                                  JStr (u "I am a systems engineer...")) ] ]) ]) ] ]) ].

Definition bio_request : request_body :=
  Body (JObj [ (u "keywords", JStr (u " golang, distributed systems ")) ]).

(** A 200 whose body is an HTML page. *)
Definition html_response : response :=
  {| status_code := 200; reason := u "OK"; url := GEMINI_MODEL_URL;
     content := NotJson (u "Expecting value: line 1 column 1 (char 0)") |}.

(** * Properties *)

Arguments u : simpl never.

(** ** Auxiliary facts *)

Lemma raise_for_status_below_400 r :
  status_code r < 400 -> raise_for_status r = Returned tt.
Proof.
  intros H. unfold raise_for_status.
  replace (400 <=? status_code r) with false by (symmetry; apply Z.leb_gt; lia).
  replace (500 <=? status_code r) with false by (symmetry; apply Z.leb_gt; lia).
  reflexivity.
Qed.

Lemma raise_for_status_4xx_5xx r :
  400 <= status_code r < 600 ->
  exists d, raise_for_status r = Raised (RequestException d).
Proof.
  intros H. unfold raise_for_status.
  destruct (status_code r <? 500) eqn:E.
  - replace (400 <=? status_code r) with true by (symmetry; apply Z.leb_le; lia).
    eexists; reflexivity.
  - rewrite andb_false_r.
    apply Z.ltb_ge in E.
    replace (500 <=? status_code r) with true by (symmetry; apply Z.leb_le; lia).
    replace (status_code r <? 600) with true by (symmetry; apply Z.ltb_lt; lia).
    eexists; reflexivity.
Qed.

Lemma seq_index_0_cons {A} (x : A) (l : list A) : seq_index (x :: l) 0 = Some x.
Proof.
  unfold seq_index.
  replace (0 <? Z.of_nat (List.length (x :: l))) with true; [reflexivity|].
  symmetry. apply Z.ltb_lt. cbn [List.length]. lia.
Qed.

Lemma seq_index_0_nil {A} : seq_index (@nil A) 0 = None.
Proof. reflexivity. Qed.

Lemma dict_get_truthy k d v : dict_get k d = Some v -> truthy (JObj d) = true.
Proof. destruct d; [discriminate | reflexivity]. Qed.

Lemma text_not_in_one_char c : str_contains (u "text") [c] = false.
Proof.
  unfold u. cbn. rewrite andb_false_r. reflexivity.
Qed.

Ltac use_lookups :=
  repeat match goal with
         | H : dict_get _ _ = _ |- _ => rewrite H
         end.

Ltac run_py :=
  unfold try_except_request, bind, lift, ret, raise, py_or;
  repeat first
    [ progress cbn [py_get py_getitem py_in py_or py_strip truthy negb fst snd]
    | progress use_lookups
    | rewrite seq_index_0_cons
    | rewrite seq_index_0_nil ].

(** Case analysis on every value the extraction inspects. *)
Ltac smash :=
  repeat (run_py;
          match goal with
          | |- context [match dict_get ?k ?d with _ => _ end] =>
              destruct (dict_get k d) eqn:?
          | |- context [if (?z =? 0) then _ else _] => destruct (z =? 0) eqn:?
          | |- context [if negb (?z =? 0) then _ else _] => destruct (z =? 0) eqn:?
          | |- context [str_contains ?k (?c :: nil)] => rewrite text_not_in_one_char
          | |- context [if str_contains ?k ?s then _ else _] =>
              destruct (str_contains k s) eqn:?
          | |- context [if existsb ?f ?l then _ else _] =>
              destruct (existsb f l) eqn:?
          | |- context [py_get ?x _ _] => is_var x; destruct x
          | |- context [py_or ?x _] => is_var x; destruct x
          | |- context [py_getitem ?x _] => is_var x; destruct x
          | |- context [py_in _ ?x] => is_var x; destruct x
          | |- context [truthy ?x] => is_var x; destruct x
          | |- context [match ?x with _ => _ end] => is_var x; destruct x
          | |- context [if ?x then _ else _] => is_var x; destruct x
          end).

(** Enters [call_gemini] with a key and a response whose status lets
    [raise_for_status] pass. *)
Ltac enter_call key Hkey Hup Hstatus Hbody :=
  unfold call_gemini; destruct key as [|k0 key']; [congruence|];
  unfold try_except_request, bind, requests_post; rewrite Hup;
  unfold lift at 1; rewrite raise_for_status_below_400 by (unfold is_2xx in Hstatus; lia);
  unfold response_json; rewrite Hbody.

Section AdapterFacts.

Variable upstream : post_args -> post_result.
Variables user_query system_prompt : pystr.
Variable log : net_log.

(** C5: with the API key unset or empty, [call_gemini] returns the
    configuration sentence and the log of network calls is unchanged, so no
    call was attempted. *)
Theorem call_gemini_without_key (api_key : option pystr) :
  api_key = None \/ api_key = Some [] ->
  call_gemini api_key upstream user_query system_prompt log =
    (Returned (JStr config_error), log).
Proof.
  intros [-> | ->]; reflexivity.
Qed.

(** C7: on a 2xx response whose JSON body has the path
    candidates[0].content.parts[0].text, [call_gemini] returns the value
    found there, after exactly one network call. *)
Theorem call_gemini_extracts_text (key : pystr) (r : response) (data v : json) :
  key <> [] ->
  upstream (gemini_request key user_query system_prompt) = Responded r ->
  is_2xx (status_code r) ->
  content r = JsonBody data ->
  spec_text_path data = Some v ->
  call_gemini (Some key) upstream user_query system_prompt log =
    (Returned v, log ++ [gemini_request key user_query system_prompt]).
Proof.
  intros Hkey Hup H2 Hc Hp.
  enter_call key Hkey Hup H2 Hc.
  unfold spec_text_path in Hp.
  destruct data as [ | | | | | |d]; try discriminate.
  destruct (dict_get (u "candidates") d)
    as [[ | | | | |[|[ | | | | | |c] rest]|]|] eqn:Ec; try discriminate.
  destruct (dict_get (u "content") c) as [[ | | | | | |ct]|] eqn:Ect; try discriminate.
  destruct (dict_get (u "parts") ct)
    as [[ | | | | |[|[ | | | | | |p] rest']|]|] eqn:Ep; try discriminate.
  run_py. reflexivity.
Qed.

(** C1 (amended): on a 2xx response whose JSON body is an object with one of
    the four named breaks, [call_gemini] returns the shape sentence. *)
Theorem call_gemini_absorbs_shape_break (key : pystr) (r : response) (data : json) :
  key <> [] ->
  upstream (gemini_request key user_query system_prompt) = Responded r ->
  is_2xx (status_code r) ->
  content r = JsonBody data ->
  shape_break data = true ->
  call_gemini (Some key) upstream user_query system_prompt log =
    (Returned (JStr shape_error), log ++ [gemini_request key user_query system_prompt]).
Proof.
  intros Hkey Hup H2 Hc Hb.
  enter_call key Hkey Hup H2 Hc.
  unfold shape_break, absent_or_falsy in Hb.
  destruct data as [ | | | | | |d]; try discriminate.
  destruct (dict_get (u "candidates") d) as [cs|] eqn:Ec.
  2: { run_py. reflexivity. }
  destruct (truthy cs) eqn:Tc.
  2: { run_py. unfold py_or. rewrite Tc. run_py. reflexivity. }
  destruct cs as [ | | | | |[|[ | | | | | |c] rest]|]; try discriminate;
    try (cbv beta iota in Hb; rewrite Tc in Hb; discriminate).
  destruct (dict_get (u "content") c) as [ct|] eqn:Ect.
  2: { run_py. reflexivity. }
  destruct ct as [ | | | | | |ct]; try discriminate.
  destruct (dict_get (u "parts") ct) as [ps|] eqn:Ep.
  2: { run_py. reflexivity. }
  destruct (truthy ps) eqn:Tp.
  2: { run_py. rewrite Tp. reflexivity. }
  destruct ps as [ | | | | |[|[ | | | | | |p] rest']|]; try discriminate;
    try (cbv beta iota in Hb; rewrite Tp in Hb; discriminate).
  destruct (dict_get (u "text") p) eqn:Et; try discriminate.
  run_py. reflexivity.
Qed.


(** C6 (amended): a failure raised by [requests.post] and a 4xx or 5xx
    status are both caught: [call_gemini] returns the transport prefix
    followed by the description of the failure, and raises nothing. *)
Theorem call_gemini_transport_failure (key : pystr) :
  key <> [] ->
  (forall d,
      upstream (gemini_request key user_query system_prompt) = PostRaised d ->
      call_gemini (Some key) upstream user_query system_prompt log =
        (Returned (JStr (transport_prefix ++ d)),
         log ++ [gemini_request key user_query system_prompt])) /\
  (forall r,
      upstream (gemini_request key user_query system_prompt) = Responded r ->
      400 <= status_code r < 600 ->
      exists d,
        raise_for_status r = Raised (RequestException d) /\
        call_gemini (Some key) upstream user_query system_prompt log =
          (Returned (JStr (transport_prefix ++ d)),
           log ++ [gemini_request key user_query system_prompt])).
Proof.
  intros Hkey. unfold call_gemini.
  destruct key as [|k0 key']; [congruence|].
  unfold try_except_request, bind, requests_post.
  split.
  - intros d Hup. rewrite Hup. reflexivity.
  - intros r Hup Hs. rewrite Hup.
    destruct (raise_for_status_4xx_5xx r Hs) as [d Hd].
    exists d. split; [exact Hd|].
    unfold lift at 1. rewrite Hd. reflexivity.
Qed.

Lemma raise_for_status_only_request r e :
  raise_for_status r = Raised e -> exists d, e = RequestException d.
Proof.
  unfold raise_for_status.
  destruct ((400 <=? status_code r) && (status_code r <? 500));
    [intros [= <-]; eexists; reflexivity|].
  destruct ((500 <=? status_code r) && (status_code r <? 600));
    [intros [= <-]; eexists; reflexivity|].
  discriminate.
Qed.

(** C8 (amended): whatever the key and the upstream, a value returned by
    [call_gemini] is the configuration sentence, the transport prefix
    followed by a description, the shape sentence, or the value at
    candidates[0].content.parts[0].text of the upstream body; and an
    exception that leaves [call_gemini] is never a [RequestException]. *)
Theorem call_gemini_result_kinds (api_key : option pystr) :
  match fst (call_gemini api_key upstream user_query system_prompt log) with
  | Returned v =>
      v = JStr config_error \/
      (exists d, v = JStr (transport_prefix ++ d)) \/
      v = JStr shape_error \/
      (exists key r data,
          api_key = Some key /\
          upstream (gemini_request key user_query system_prompt) = Responded r /\
          content r = JsonBody data /\
          spec_text_path data = Some v)
  | Raised e => forall d, e <> RequestException d
  end.
Proof.
  destruct api_key as [[|k0 key']|]; [left; reflexivity| |left; reflexivity].
  unfold call_gemini, try_except_request, bind, requests_post.
  destruct (upstream (gemini_request (k0 :: key') user_query system_prompt))
    as [d|r] eqn:Hup.
  { right; left; eexists; reflexivity. }
  unfold lift at 1.
  destruct (raise_for_status r) as [[]|e] eqn:Hr.
  2: { destruct (raise_for_status_only_request r e Hr) as [d ->].
       right; left; eexists; reflexivity. }
  unfold lift at 1. unfold response_json.
  destruct (content r) as [data|d] eqn:Hc.
  2: { right; left; eexists; reflexivity. }
  match goal with
  | |- match fst ?X with _ => _ end =>
      assert (Hpure : match fst X with
                      | Returned v => v = JStr shape_error \/ spec_text_path data = Some v
                      | Raised e => forall d, e <> RequestException d
                      end);
      [clear Hup Hr Hc | destruct (fst X) as [v|e]]
  end.
  - smash;
      first [ intros; discriminate
            | left; reflexivity
            | right; unfold spec_text_path; use_lookups; reflexivity ].
  - destruct Hpure as [-> | Hp]; [right; right; left; reflexivity|].
    right; right; right. exists (k0 :: key'), r, data. repeat split; assumption.
  - exact Hpure.
Qed.

End AdapterFacts.

Section RouteFacts.

Variable api_key : option pystr.
Variable upstream : post_args -> post_result.
Variable log : net_log.

Lemma request_dict_data request d :
  request_dict request = Some d ->
  py_or (get_json_silent request) (JObj []) = JObj d.
Proof.
  unfold request_dict.
  destruct (py_or (get_json_silent request) (JObj [])); try discriminate.
  intros [= ->]. reflexivity.
Qed.

(** C3 (amended): when [keywords] is missing, or is a string that is empty
    after trimming, the bio view returns 400 with the fixed error body and
    makes no call. *)
Theorem api_bio_rejects_blank_keywords request d :
  request_dict request = Some d ->
  (dict_get (u "keywords") d = None \/
   exists s, dict_get (u "keywords") d = Some (JStr s) /\ strip s = []) ->
  api_bio api_key upstream request log = (Returned (no_keywords_body, 400), log).
Proof.
  intros Hd Hk. unfold api_bio. rewrite (request_dict_data _ _ Hd).
  destruct Hk as [Hk | [s [Hk Hs]]].
  - run_py. reflexivity.
  - run_py. rewrite Hs. reflexivity.
Qed.


(** The project view on a mapping: what it hands to the adapter. *)
Lemma api_project_on_dict request d :
  request_dict request = Some d ->
  forall field,
    py_get (JObj d) (u "role") (JStr default_role) = Returned (JStr field) ->
    api_project api_key upstream request log =
      (html <- call_gemini api_key upstream
                 (u "Role: " ++ str_or (strip field) default_role)
                 project_system_prompt ;;
       ret (JObj [ (u "html", html) ], 200)) log.
Proof.
  intros Hd field Hf. unfold api_project. rewrite (request_dict_data _ _ Hd).
  unfold bind at 1. unfold lift at 1. rewrite Hf.
  reflexivity.
Qed.

Lemma spec_project_query_code d q :
  spec_project_query (dict_get (u "role") d) = Some q ->
  exists field,
    py_get (JObj d) (u "role") (JStr default_role) = Returned (JStr field) /\
    q = u "Role: " ++ str_or (strip field) default_role.
Proof.
  unfold spec_project_query, py_get.
  destruct (dict_get (u "role") d) as [[ | | | |s| | ]|]; try discriminate.
  - intros Hq. exists s. split; [reflexivity|].
    destruct (strip s) as [|c t]; injection Hq as <-; reflexivity.
  - intros [= <-]. exists default_role. split; reflexivity.
Qed.

(** C9 (amended): on a body bound to a mapping whose [role] is missing or a
    string, the project view calls the adapter with "Role: AI Software
    Engineer" when [role] is missing or blank, and with "Role: " followed by
    the trimmed role otherwise, and wraps what the adapter returns. *)
Theorem api_project_user_query request d q :
  request_dict request = Some d ->
  spec_project_query (dict_get (u "role") d) = Some q ->
  api_project api_key upstream request log =
    (html <- call_gemini api_key upstream q project_system_prompt ;;
     ret (JObj [ (u "html", html) ], 200)) log.
Proof.
  intros Hd Hq.
  destruct (spec_project_query_code d q Hq) as [field [Hf ->]].
  exact (api_project_on_dict request d Hd field Hf).
Qed.

(** C2 (amended): the project view never answers 400; when [role] is missing
    or is any string it answers 200 with an [html] field, unless the adapter
    itself raised. *)
Theorem api_project_never_rejects request :
  status (serve (fst (api_project api_key upstream request log))) <> 400 /\
  forall d,
    request_dict request = Some d ->
    (dict_get (u "role") d = None \/ exists s, dict_get (u "role") d = Some (JStr s)) ->
    match fst (api_project api_key upstream request log) with
    | Returned (body, code) => code = 200 /\ exists html, body = JObj [ (u "html", html) ]
    | Raised e =>
        exists q, fst (call_gemini api_key upstream q project_system_prompt log) = Raised e
    end.
Proof.
  split.
  - unfold api_project, bind, lift.
    destruct (py_get _ _ _) as [field|e]; [|cbn; lia].
    destruct (py_strip field) as [stripped|e]; [|cbn; lia].
    destruct (call_gemini _ _ _ _ _) as [[html|e] log']; cbn; lia.
  - intros d Hd Hr.
    assert (Hf : exists field,
               py_get (JObj d) (u "role") (JStr default_role) = Returned (JStr field)).
    { destruct Hr as [H | [s H]]; unfold py_get; rewrite H; eexists; reflexivity. }
    destruct Hf as [field Hf].
    rewrite (api_project_on_dict request d Hd field Hf).
    unfold bind.
    destruct (call_gemini api_key upstream _ project_system_prompt log)
      as [[html|e] log'] eqn:Hc; cbn.
    + split; [reflexivity | eexists; reflexivity].
    + eexists. rewrite Hc. reflexivity.
Qed.

(** C10: a [keywords] or [role] field that is present and is neither a
    string nor null makes the view raise [AttributeError], which Flask
    serves as a 500. *)
Theorem non_string_field_raises d_bio d_project v w :
  is_string v = false -> v <> JNull ->
  is_string w = false -> w <> JNull ->
  dict_get (u "keywords") d_bio = Some v ->
  dict_get (u "role") d_project = Some w ->
  api_bio api_key upstream (Body (JObj d_bio)) log = (Raised AttributeError, log) /\
  api_project api_key upstream (Body (JObj d_project)) log = (Raised AttributeError, log) /\
  status (serve (fst (api_bio api_key upstream (Body (JObj d_bio)) log))) = 500 /\
  status (serve (fst (api_project api_key upstream (Body (JObj d_project)) log))) = 500.
Proof.
  intros Hv _ Hw _ Hk Hr.
  assert (Hb : api_bio api_key upstream (Body (JObj d_bio)) log = (Raised AttributeError, log)).
  { unfold api_bio, get_json_silent, py_or. rewrite (dict_get_truthy _ _ _ Hk).
    run_py. destruct v; try discriminate; reflexivity. }
  assert (Hp : api_project api_key upstream (Body (JObj d_project)) log =
               (Raised AttributeError, log)).
  { unfold api_project, get_json_silent, py_or. rewrite (dict_get_truthy _ _ _ Hr).
    run_py. destruct w; try discriminate; reflexivity. }
  rewrite Hb, Hp. repeat split.
Qed.

End RouteFacts.

(** ** Concrete runs *)

Lemma call_gemini_without_key_witness :
  call_gemini None (mock_upstream (Responded (json_response 200 (u "OK") hello_body)))
    demo_query bio_system_prompt [] =
  (Returned (JStr config_error), []).
Proof.
  apply (call_gemini_without_key
           (mock_upstream (Responded (json_response 200 (u "OK") hello_body)))
           demo_query bio_system_prompt [] None).
  left; reflexivity.
Defined.

Lemma call_gemini_extracts_text_witness :
  call_gemini (Some demo_key)
    (mock_upstream (Responded (json_response 200 (u "OK") hello_body)))
    demo_query bio_system_prompt [] =
  (Returned (JStr (u "Hello")), [gemini_request demo_key demo_query bio_system_prompt]).
Proof.
  apply (call_gemini_extracts_text
           (mock_upstream (Responded (json_response 200 (u "OK") hello_body)))
           demo_query bio_system_prompt [] demo_key
           (json_response 200 (u "OK") hello_body) hello_body (JStr (u "Hello"))).
  - discriminate.
  - reflexivity.
  - unfold is_2xx; simpl; lia.
  - reflexivity.
  - reflexivity.
Defined.

Lemma call_gemini_absorbs_shape_break_witness :
  call_gemini (Some demo_key)
    (mock_upstream (Responded (json_response 200 (u "OK") no_candidates_body)))
    demo_query bio_system_prompt [] =
  (Returned (JStr shape_error), [gemini_request demo_key demo_query bio_system_prompt]).
Proof.
  apply (call_gemini_absorbs_shape_break
           (mock_upstream (Responded (json_response 200 (u "OK") no_candidates_body)))
           demo_query bio_system_prompt [] demo_key
           (json_response 200 (u "OK") no_candidates_body) no_candidates_body).
  - discriminate.
  - reflexivity.
  - unfold is_2xx; simpl; lia.
  - reflexivity.
  - reflexivity.
Defined.

(** A 2xx body without the text path that is not absorbed: [content] is
    [null], so [candidate.get("content", {})] is [None] and the next [.get]
    raises. *)
Lemma call_gemini_null_content_raises :
  is_2xx 200 /\
  spec_text_path null_content_body = None /\
  call_gemini (Some demo_key)
    (mock_upstream (Responded (json_response 200 (u "OK") null_content_body)))
    demo_query bio_system_prompt [] =
  (Raised AttributeError, [gemini_request demo_key demo_query bio_system_prompt]).
Proof.
  split; [unfold is_2xx; lia|]. split; reflexivity.
Qed.

Lemma call_gemini_transport_failure_witness :
  call_gemini (Some demo_key) (mock_upstream (PostRaised (u "Read timed out.")))
    demo_query bio_system_prompt [] =
  (Returned (JStr (u "Error calling Gemini API: Read timed out.")),
   [gemini_request demo_key demo_query bio_system_prompt]) /\
  call_gemini (Some demo_key)
    (mock_upstream (Responded (json_response 503 (u "Service Unavailable") (JObj []))))
    demo_query bio_system_prompt [] =
  (Returned (JStr (u "Error calling Gemini API: 503 Server Error: Service Unavailable for url: " ++
                   GEMINI_MODEL_URL)),
   [gemini_request demo_key demo_query bio_system_prompt]).
Proof.
  split.
  - apply (proj1 (call_gemini_transport_failure
                    (mock_upstream (PostRaised (u "Read timed out.")))
                    demo_query bio_system_prompt [] demo_key
                    ltac:(discriminate))).
    reflexivity.
  - destruct (proj2 (call_gemini_transport_failure
                       (mock_upstream
                          (Responded (json_response 503 (u "Service Unavailable") (JObj []))))
                       demo_query bio_system_prompt [] demo_key
                       ltac:(discriminate))
                    (json_response 503 (u "Service Unavailable") (JObj []))
                    eq_refl ltac:(simpl; lia)) as [d [Hd Hcall]].
    injection Hd as <-. exact Hcall.
Defined.

(** A status outside 2xx that [raise_for_status] lets through. *)
Lemma call_gemini_status_300_passes :
  ~ is_2xx 300 /\
  call_gemini (Some demo_key)
    (mock_upstream (Responded (json_response 300 (u "Multiple Choices") (JObj []))))
    demo_query bio_system_prompt [] =
  (Returned (JStr shape_error), [gemini_request demo_key demo_query bio_system_prompt]) /\
  startswith transport_prefix shape_error = false.
Proof.
  split; [unfold is_2xx; lia|]. split; reflexivity.
Qed.

(** The extracted value is returned as it is, and a top-level array makes the
    first [.get] raise. *)
Lemma call_gemini_non_string_result :
  call_gemini (Some demo_key)
    (mock_upstream (Responded (json_response 200 (u "OK") numeric_text_body)))
    demo_query bio_system_prompt [] =
  (Returned (JInt 5), [gemini_request demo_key demo_query bio_system_prompt]) /\
  is_string (JInt 5) = false /\
  call_gemini (Some demo_key)
    (mock_upstream (Responded (json_response 200 (u "OK") (JList []))))
    demo_query bio_system_prompt [] =
  (Raised AttributeError, [gemini_request demo_key demo_query bio_system_prompt]).
Proof.
  repeat split; reflexivity.
Qed.

Lemma api_bio_rejects_blank_keywords_witness :
  api_bio (Some demo_key)
    (mock_upstream (Responded (json_response 200 (u "OK") hello_body)))
    (Body (JObj [ (u "keywords", JStr (u "   ")) ])) [] =
  (Returned (no_keywords_body, 400), []).
Proof.
  apply (api_bio_rejects_blank_keywords (Some demo_key)
           (mock_upstream (Responded (json_response 200 (u "OK") hello_body))) []
           (Body (JObj [ (u "keywords", JStr (u "   ")) ]))
           [ (u "keywords", JStr (u "   ")) ]).
  - reflexivity.
  - right. exists (u "   "). split; reflexivity.
Defined.

(** [null] is not the missing case of [.get]: [None.strip()] raises. *)
Lemma api_bio_null_keywords_raises :
  api_bio None (mock_upstream (Responded (json_response 200 (u "OK") hello_body)))
    (Body (JObj [ (u "keywords", JNull) ])) [] =
  (Raised AttributeError, []) /\
  status (serve (fst (api_bio None
    (mock_upstream (Responded (json_response 200 (u "OK") hello_body)))
    (Body (JObj [ (u "keywords", JNull) ])) []))) = 500.
Proof.
  split; reflexivity.
Qed.


Lemma api_project_user_query_witness :
  api_project (Some demo_key)
    (mock_upstream (Responded (json_response 200 (u "OK") hello_body)))
    (Body (JObj [ (u "role", JStr (u "  Data Engineer ")) ])) [] =
  (Returned (JObj [ (u "html", JStr (u "Hello")) ], 200),
   [gemini_request demo_key (u "Role: Data Engineer") project_system_prompt]).
Proof.
  rewrite (api_project_user_query (Some demo_key)
             (mock_upstream (Responded (json_response 200 (u "OK") hello_body))) []
             (Body (JObj [ (u "role", JStr (u "  Data Engineer ")) ]))
             [ (u "role", JStr (u "  Data Engineer ")) ]
             (u "Role: Data Engineer") eq_refl eq_refl).
  reflexivity.
Defined.

Lemma api_project_never_rejects_witness :
  match fst (api_project None
               (mock_upstream (Responded (json_response 200 (u "OK") hello_body)))
               (Body (JObj [ (u "role", JStr (u " ")) ])) []) with
  | Returned (body, code) => code = 200 /\ exists html, body = JObj [ (u "html", html) ]
  | Raised e =>
      exists q,
        fst (call_gemini None
               (mock_upstream (Responded (json_response 200 (u "OK") hello_body)))
               q project_system_prompt []) = Raised e
  end.
Proof.
  apply (proj2 (api_project_never_rejects None
                  (mock_upstream (Responded (json_response 200 (u "OK") hello_body))) []
                  (Body (JObj [ (u "role", JStr (u " ")) ])))
               [ (u "role", JStr (u " ")) ]).
  - reflexivity.
  - right. exists (u " "). reflexivity.
Defined.

(** Two requests at which nothing is sent: a [role] that is a number has no
    [.strip()], and an array body, in which [role] is missing, has no [.get];
    in both the view raises before it reaches the adapter. *)
Lemma api_project_sends_nothing_on_mistyped_request :
  spec_project_query (Some (JInt 42)) = None /\
  api_project (Some demo_key)
    (mock_upstream (Responded (json_response 200 (u "OK") hello_body)))
    (Body (JObj [ (u "role", JInt 42) ])) [] = (Raised AttributeError, []) /\
  api_project (Some demo_key)
    (mock_upstream (Responded (json_response 200 (u "OK") hello_body)))
    (Body (JList [ JInt 1 ])) [] = (Raised AttributeError, []).
Proof.
  repeat split; reflexivity.
Qed.

(** The default of [.get] does not apply to a [role] that is [null]. *)
Lemma api_project_null_role_raises :
  api_project None (mock_upstream (Responded (json_response 200 (u "OK") hello_body)))
    (Body (JObj [ (u "role", JNull) ])) [] =
  (Raised AttributeError, []) /\
  status (serve (fst (api_project None
    (mock_upstream (Responded (json_response 200 (u "OK") hello_body)))
    (Body (JObj [ (u "role", JNull) ])) []))) = 500.
Proof.
  split; reflexivity.
Qed.

Lemma non_string_field_raises_witness :
  api_bio (Some demo_key)
    (mock_upstream (Responded (json_response 200 (u "OK") hello_body)))
    (Body (JObj [ (u "keywords", JInt 42) ])) [] = (Raised AttributeError, []) /\
  api_project (Some demo_key)
    (mock_upstream (Responded (json_response 200 (u "OK") hello_body)))
    (Body (JObj [ (u "role", JList [ JStr (u "dev") ]) ])) [] = (Raised AttributeError, []).
Proof.
  destruct (non_string_field_raises (Some demo_key)
              (mock_upstream (Responded (json_response 200 (u "OK") hello_body))) []
              [ (u "keywords", JInt 42) ] [ (u "role", JList [ JStr (u "dev") ]) ]
              (JInt 42) (JList [ JStr (u "dev") ])
              eq_refl ltac:(discriminate) eq_refl ltac:(discriminate) eq_refl eq_refl)
    as [Hb [Hp _]].
  split; assumption.
Defined.

(** * Further properties *)

(** ** [str.strip()] *)

Lemma lstrip_split s :
  exists a, s = a ++ lstrip s /\ forallb isspace a = true.
Proof.
  induction s as [|c s IH]; [exists []; split; reflexivity|].
  cbn [lstrip]. destruct (isspace c) eqn:Hc.
  - destruct IH as [a [Ha Hsp]]. exists (c :: a). split.
    + cbn [app]. rewrite <- Ha. reflexivity.
    + cbn [forallb]. rewrite Hc, Hsp. reflexivity.
  - exists []. split; reflexivity.
Qed.

Lemma lstrip_head s c t : lstrip s = c :: t -> isspace c = false.
Proof.
  induction s as [|x s IH]; [discriminate|].
  cbn [lstrip]. destruct (isspace x) eqn:Hx; [exact IH|].
  intros [= <- <-]. exact Hx.
Qed.

Lemma lstrip_fixed c t : isspace c = false -> lstrip (c :: t) = c :: t.
Proof. intros H. cbn [lstrip]. rewrite H. reflexivity. Qed.

Lemma lstrip_blank s : forallb isspace s = true -> lstrip s = [].
Proof.
  induction s as [|c s IH]; [reflexivity|].
  cbn [forallb lstrip]. intros H. apply andb_true_iff in H as [Hc Hs].
  rewrite Hc. exact (IH Hs).
Qed.

Lemma lstrip_idempotent s : lstrip (lstrip s) = lstrip s.
Proof.
  destruct (lstrip s) as [|c t] eqn:E; [reflexivity|].
  apply lstrip_fixed. exact (lstrip_head s c t E).
Qed.

Lemma forallb_rev {A} (f : A -> bool) (l : list A) :
  forallb f (rev l) = forallb f l.
Proof.
  induction l as [|x l IH]; [reflexivity|].
  cbn [rev forallb]. rewrite forallb_app, IH. cbn [forallb].
  rewrite andb_true_r. apply andb_comm.
Qed.

Lemma strip_split s :
  exists a b,
    s = a ++ strip s ++ b /\ forallb isspace a = true /\ forallb isspace b = true.
Proof.
  unfold strip, rstrip.
  destruct (lstrip_split s) as [a [Ha Hsa]].
  destruct (lstrip_split (rev (lstrip s))) as [p [Hp Hsp]].
  exists a, (rev p).
  assert (Ht : lstrip s = rev (lstrip (rev (lstrip s))) ++ rev p).
  { rewrite <- rev_app_distr, <- Hp, rev_involutive. reflexivity. }
  split; [rewrite <- Ht; exact Ha|].
  split; [exact Hsa | rewrite forallb_rev; exact Hsp].
Qed.

Lemma strip_last s t c : strip s = t ++ [c] -> isspace c = false.
Proof.
  unfold strip, rstrip. intros Hc.
  apply (f_equal (@rev _)) in Hc.
  rewrite rev_involutive, rev_app_distr in Hc. cbn [rev app] in Hc.
  exact (lstrip_head _ _ _ Hc).
Qed.

Lemma strip_head s c t : strip s = c :: t -> isspace c = false.
Proof.
  unfold strip, rstrip. intros Hc.
  destruct (lstrip s) as [|x t'] eqn:El; [cbn in Hc; discriminate|].
  pose proof (lstrip_head s x t' El) as Hx.
  destruct (lstrip_split (rev (x :: t'))) as [p [Hp Hsp]].
  apply (f_equal (@rev _)) in Hp.
  rewrite rev_involutive, rev_app_distr, Hc in Hp.
  cbn [app] in Hp. injection Hp as -> _. exact Hx.
Qed.

Lemma strip_nil_iff s : strip s = [] <-> forallb isspace s = true.
Proof.
  split.
  - intros H. unfold strip, rstrip in H.
    destruct (lstrip_split s) as [a [Ha Hsa]].
    destruct (lstrip s) as [|c t] eqn:El.
    + rewrite Ha, app_nil_r. exact Hsa.
    + exfalso.
      pose proof (lstrip_head s c t El) as Hc.
      apply (f_equal (@rev _)) in H. rewrite rev_involutive in H. cbn [rev] in H.
      destruct (lstrip_split (rev (c :: t))) as [p [Hp Hsp]].
      cbn [rev] in Hp. rewrite H, app_nil_r in Hp.
      rewrite <- Hp in Hsp. change (rev t ++ [c]) with (rev (c :: t)) in Hsp.
      rewrite forallb_rev in Hsp. cbn [forallb] in Hsp.
      rewrite Hc in Hsp. discriminate.
  - intros H. unfold strip, rstrip. rewrite (lstrip_blank s H). reflexivity.
Qed.

Lemma strip_strip s : strip (strip s) = strip s.
Proof.
  destruct (strip s) as [|c t] eqn:E; [reflexivity|].
  unfold strip at 1, rstrip.
  rewrite (lstrip_fixed c t (strip_head s c t E)).
  destruct (rev (c :: t)) as [|x r] eqn:Er.
  { apply (f_equal (@List.length _)) in Er. rewrite length_rev in Er. discriminate. }
  assert (Hx : isspace x = false).
  { apply (strip_last s (rev r) x). rewrite E.
    apply (f_equal (@rev _)) in Er. rewrite rev_involutive in Er. exact Er. }
  rewrite (lstrip_fixed x r Hx), <- Er. apply rev_involutive.
Qed.

(** X15: [.strip()] removes a run of whitespace at each end of the field and
    nothing else: the field is the trimmed text between two blank runs, and
    the trimmed text neither starts nor ends with whitespace. *)
Theorem strip_trims_both_ends s :
  exists a b,
    s = a ++ strip s ++ b /\
    forallb isspace a = true /\
    forallb isspace b = true /\
    (forall c t, strip s = c :: t -> isspace c = false) /\
    (forall t c, strip s = t ++ [c] -> isspace c = false).
Proof.
  destruct (strip_split s) as [a [b [Hs [Ha Hb]]]].
  exists a, b. repeat split; try assumption.
  - exact (strip_head s).
  - exact (strip_last s).
Qed.

(** ** The adapter *)

(** A lookup in the empty [dict] finds nothing. *)
Ltac absurd_lookup :=
  match goal with
  | E : dict_get _ [] = Some _ |- _ => discriminate E
  end.

Section AdapterMore.

Variable upstream : post_args -> post_result.
Variables user_query system_prompt : pystr.
Variable log : net_log.

(** The log after a call: untouched without a key, one more entry with one. *)
Lemma call_gemini_log (api_key : option pystr) :
  snd (call_gemini api_key upstream user_query system_prompt log) =
  match api_key with
  | None | Some [] => log
  | Some key => log ++ [gemini_request key user_query system_prompt]
  end.
Proof.
  destruct api_key as [[|k0 key']|]; try reflexivity.
  unfold call_gemini, try_except_request, bind, requests_post.
  destruct (upstream (gemini_request (k0 :: key') user_query system_prompt)) as [d|r];
    [reflexivity|].
  unfold lift at 1.
  destruct (raise_for_status r) as [[]|[ | | | |d]]; try reflexivity.
  unfold lift at 1. unfold response_json.
  destruct (content r) as [data|d]; [|reflexivity].
  smash; reflexivity.
Qed.

(** X1: with a key, one call of the adapter makes exactly one POST, whatever
    the upstream answers and whether the adapter returns or raises: to the
    fixed URL, with the key as the [key] parameter, the two texts in the
    payload and a 30 second timeout. *)
Theorem call_gemini_posts_once (key : pystr) :
  key <> [] ->
  exists req,
    snd (call_gemini (Some key) upstream user_query system_prompt log) = log ++ [req] /\
    post_url req = GEMINI_MODEL_URL /\
    post_params req = [ (u "key", key) ] /\
    post_json req = gemini_payload user_query system_prompt /\
    post_timeout req = 30.
Proof.
  intros Hkey. exists (gemini_request key user_query system_prompt).
  split; [|repeat split].
  rewrite call_gemini_log. destruct key; [congruence | reflexivity].
Qed.

(** X2: once [resp.json()] has returned a body, the adapter can raise only
    [AttributeError], [TypeError] or [KeyError] while reading it (the guards
    keep every subscript in range), and only if the status check passed and
    the body has neither the text path nor one of the four absorbed
    breaks. *)
Theorem call_gemini_raises_only_on_mistyped_body
    (key : pystr) (r : response) (data : json) (e : exn) :
  upstream (gemini_request key user_query system_prompt) = Responded r ->
  content r = JsonBody data ->
  fst (call_gemini (Some key) upstream user_query system_prompt log) = Raised e ->
  (e = AttributeError \/ e = TypeError \/ e = KeyError) /\
  raise_for_status r = Returned tt /\
  spec_text_path data = None /\
  shape_break data = false.
Proof.
  intros Hup Hc.
  destruct key as [|k0 key']; [discriminate|].
  unfold call_gemini, try_except_request, bind, requests_post. rewrite Hup.
  unfold lift at 1.
  destruct (raise_for_status r) as [[]|e'] eqn:Hr.
  2: { destruct (raise_for_status_only_request r e' Hr) as [d ->]. discriminate. }
  unfold lift at 1. unfold response_json. rewrite Hc.
  intros H.
  assert (Hpure : (e = AttributeError \/ e = TypeError \/ e = KeyError) /\
                  spec_text_path data = None /\ shape_break data = false).
  { clear Hup Hr Hc. revert H.
    smash; run_py; try absurd_lookup; intros H;
      first [ discriminate H
            | injection H as <-;
              split; [tauto|];
              unfold spec_text_path, shape_break, absent_or_falsy;
              use_lookups; cbn [truthy negb];
              repeat match goal with
                     | E : (_ =? 0) = _ |- _ => rewrite E
                     end;
              split; reflexivity ]. }
  destruct Hpure as [He [Hp Hb]].
  repeat split; assumption.
Qed.

(** X3: a response that passes the status check but whose body is not JSON
    is reported like a transport failure, with the decoder's message. *)
Theorem call_gemini_non_json_body (key : pystr) (r : response) (d : pystr) :
  key <> [] ->
  upstream (gemini_request key user_query system_prompt) = Responded r ->
  raise_for_status r = Returned tt ->
  content r = NotJson d ->
  call_gemini (Some key) upstream user_query system_prompt log =
    (Returned (JStr (transport_prefix ++ d)),
     log ++ [gemini_request key user_query system_prompt]).
Proof.
  intros Hkey Hup Hs Hc.
  unfold call_gemini. destruct key as [|k0 key']; [congruence|].
  unfold try_except_request, bind, requests_post. rewrite Hup.
  unfold lift at 1. rewrite Hs.
  unfold lift at 1. unfold response_json. rewrite Hc.
  reflexivity.
Qed.

End AdapterMore.

(** ** The views *)

Section ViewsMore.

Variable api_key : option pystr.
Variable upstream : post_args -> post_result.
Variable log : net_log.

(** The bio view on a mapping whose [keywords] is a string. *)
Lemma api_bio_on_dict request d :
  request_dict request = Some d ->
  forall field,
    py_get (JObj d) (u "keywords") (JStr []) = Returned (JStr field) ->
    api_bio api_key upstream request log =
      match strip field with
      | [] => (Returned (no_keywords_body, 400), log)
      | _ :: _ =>
          (text <- call_gemini api_key upstream (u "Keywords: " ++ strip field)
                     bio_system_prompt ;;
           ret (JObj [ (u "text", text) ], 200)) log
      end.
Proof.
  intros Hd field Hf. unfold api_bio. rewrite (request_dict_data _ _ Hd).
  unfold bind at 1. unfold lift at 1. rewrite Hf.
  unfold bind at 1. unfold lift at 1. cbn [py_strip].
  destruct (strip field); reflexivity.
Qed.

(** A body that is bound to something else than a [dict]. *)
Lemma views_on_non_dict request :
  request_dict request = None ->
  api_bio api_key upstream request log = (Raised AttributeError, log) /\
  api_project api_key upstream request log = (Raised AttributeError, log).
Proof.
  unfold request_dict, api_bio, api_project. intros H.
  destruct (py_or (get_json_silent request) (JObj [])); try discriminate;
    split; reflexivity.
Qed.

(** X4: when [keywords] is a string that is not blank, the bio view is the
    adapter call on "Keywords: " followed by the trimmed field: it answers 200
    with the adapter's value in [text], and raises what the adapter raises. *)
Theorem api_bio_wraps_adapter request d s :
  request_dict request = Some d ->
  dict_get (u "keywords") d = Some (JStr s) ->
  strip s <> [] ->
  api_bio api_key upstream request log =
    (text <- call_gemini api_key upstream (u "Keywords: " ++ strip s) bio_system_prompt ;;
     ret (JObj [ (u "text", text) ], 200)) log.
Proof.
  intros Hd Hk Hs.
  rewrite (api_bio_on_dict request d Hd s) by (unfold py_get; rewrite Hk; reflexivity).
  destruct (strip s); [congruence | reflexivity].
Qed.

(** X5: for a string [keywords], the bio view is served as a 400 exactly
    when every character of the field is whitespace. *)
Theorem api_bio_400_iff_blank request d s :
  request_dict request = Some d ->
  dict_get (u "keywords") d = Some (JStr s) ->
  status (serve (fst (api_bio api_key upstream request log))) = 400 <->
  forallb isspace s = true.
Proof.
  intros Hd Hk.
  rewrite (api_bio_on_dict request d Hd s) by (unfold py_get; rewrite Hk; reflexivity).
  rewrite <- strip_nil_iff.
  destruct (strip s) as [|c t] eqn:Hs.
  - split; reflexivity.
  - unfold bind.
    destruct (call_gemini api_key upstream _ bio_system_prompt log) as [[text|e] log'];
      cbn; split; intros H; discriminate H.
Qed.

(** X7: a JSON body that is truthy and not an object (an array, a string, a
    number, [true]) makes both views raise [AttributeError] before any call;
    Flask serves a 500. *)
Theorem non_object_body_raises request :
  request_dict request = None ->
  api_bio api_key upstream request log = (Raised AttributeError, log) /\
  api_project api_key upstream request log = (Raised AttributeError, log) /\
  status (serve (fst (api_bio api_key upstream request log))) = 500 /\
  status (serve (fst (api_project api_key upstream request log))) = 500.
Proof.
  intros H. destruct (views_on_non_dict request H) as [Hb Hp].
  rewrite Hb, Hp. repeat split.
Qed.

(** X9: a view makes at most one POST; the log it is given is kept as it
    is and at most one entry is added, for the fixed URL. *)
Theorem views_post_at_most_once request :
  (snd (api_bio api_key upstream request log) = log \/
   exists req, snd (api_bio api_key upstream request log) = log ++ [req] /\
               post_url req = GEMINI_MODEL_URL) /\
  (snd (api_project api_key upstream request log) = log \/
   exists req, snd (api_project api_key upstream request log) = log ++ [req] /\
               post_url req = GEMINI_MODEL_URL).
Proof.
  assert (Hcall : forall q p,
             snd (call_gemini api_key upstream q p log) = log \/
             exists req, snd (call_gemini api_key upstream q p log) = log ++ [req] /\
                         post_url req = GEMINI_MODEL_URL).
  { intros q p. rewrite call_gemini_log.
    destruct api_key as [[|k0 key']|]; [left; reflexivity| |left; reflexivity].
    right. eexists. split; reflexivity. }
  split.
  - unfold api_bio, bind, lift, ret.
    destruct (py_get _ _ _) as [field|e]; [|left; reflexivity].
    destruct (py_strip field) as [keywords|e]; [|left; reflexivity].
    destruct (negb (str_truthy keywords)); [left; reflexivity|].
    specialize (Hcall (u "Keywords: " ++ keywords) bio_system_prompt).
    destruct (call_gemini api_key upstream _ bio_system_prompt log) as [[text|e] l];
      exact Hcall.
  - unfold api_project, bind, lift, ret.
    destruct (py_get _ _ _) as [field|e]; [|left; reflexivity].
    destruct (py_strip field) as [stripped|e]; [|left; reflexivity].
    specialize (Hcall (u "Role: " ++ str_or stripped default_role) project_system_prompt).
    destruct (call_gemini api_key upstream _ project_system_prompt log) as [[html|e] l];
      exact Hcall.
Qed.

(** X10: what the bio view returns is either the 400 with the fixed error
    body, no call having been made, or a 200 whose body is the single field
    [text] holding what the adapter returned for "Keywords: " followed by
    keywords that are not empty. *)
Theorem api_bio_returned_responses request b code :
  fst (api_bio api_key upstream request log) = Returned (b, code) ->
  (code = 400 /\ b = no_keywords_body /\
   snd (api_bio api_key upstream request log) = log) \/
  (code = 200 /\
   exists text keywords,
     b = JObj [ (u "text", text) ] /\
     keywords <> [] /\
     fst (call_gemini api_key upstream (u "Keywords: " ++ keywords)
            bio_system_prompt log) = Returned text).
Proof.
  unfold api_bio, bind, lift, ret.
  destruct (py_get _ _ _) as [field|e]; [|discriminate].
  destruct (py_strip field) as [keywords|e]; [|discriminate].
  destruct keywords as [|c t]; cbn [str_truthy truthy negb].
  { intros [= <- <-]. left. repeat split. }
  destruct (call_gemini api_key upstream (u "Keywords: " ++ c :: t) bio_system_prompt log)
    as [[text|e] l] eqn:Hcall; [|discriminate].
  intros [= <- <-]. right. split; [reflexivity|].
  exists text, (c :: t). split; [reflexivity|]. split; [discriminate|].
  rewrite Hcall. reflexivity.
Qed.

(** X11: what the project view returns is always a 200 whose body is the
    single field [html] holding what the adapter returned for "Role: "
    followed by a role that is not empty. *)
Theorem api_project_returned_responses request b code :
  fst (api_project api_key upstream request log) = Returned (b, code) ->
  code = 200 /\
  exists html role,
    b = JObj [ (u "html", html) ] /\
    role <> [] /\
    fst (call_gemini api_key upstream (u "Role: " ++ role)
           project_system_prompt log) = Returned html.
Proof.
  unfold api_project, bind, lift, ret.
  destruct (py_get _ _ _) as [field|e]; [|discriminate].
  destruct (py_strip field) as [stripped|e]; [|discriminate].
  destruct (call_gemini api_key upstream (u "Role: " ++ str_or stripped default_role)
              project_system_prompt log) as [[html|e] l] eqn:Hcall; [|discriminate].
  intros [= <- <-]. split; [reflexivity|].
  exists html, (str_or stripped default_role). split; [reflexivity|]. split.
  - destruct stripped; discriminate.
  - rewrite Hcall. reflexivity.
Qed.

(** X13: whitespace around [keywords] does not matter: the bio view gives
    the same outcome for a field and for the field already trimmed. *)
Theorem api_bio_ignores_outer_whitespace request request' d d' s :
  request_dict request = Some d ->
  request_dict request' = Some d' ->
  dict_get (u "keywords") d = Some (JStr s) ->
  dict_get (u "keywords") d' = Some (JStr (strip s)) ->
  api_bio api_key upstream request log = api_bio api_key upstream request' log.
Proof.
  intros Hd Hd' Hk Hk'.
  rewrite (api_bio_on_dict request d Hd s) by (unfold py_get; rewrite Hk; reflexivity).
  rewrite (api_bio_on_dict request' d' Hd' (strip s))
    by (unfold py_get; rewrite Hk'; reflexivity).
  rewrite strip_strip. reflexivity.
Qed.

(** X14: whitespace around [role] does not matter to the project view. *)
Theorem api_project_ignores_outer_whitespace request request' d d' s :
  request_dict request = Some d ->
  request_dict request' = Some d' ->
  dict_get (u "role") d = Some (JStr s) ->
  dict_get (u "role") d' = Some (JStr (strip s)) ->
  api_project api_key upstream request log = api_project api_key upstream request' log.
Proof.
  intros Hd Hd' Hk Hk'.
  rewrite (api_project_on_dict api_key upstream log request d Hd s)
    by (unfold py_get; rewrite Hk; reflexivity).
  rewrite (api_project_on_dict api_key upstream log request' d' Hd' (strip s))
    by (unfold py_get; rewrite Hk'; reflexivity).
  rewrite strip_strip. reflexivity.
Qed.

End ViewsMore.

Section ViewsAndUpstream.

Variable upstream : post_args -> post_result.
Variable log : net_log.

Lemma call_gemini_post_raised key q p desc :
  key <> [] ->
  upstream (gemini_request key q p) = PostRaised desc ->
  call_gemini (Some key) upstream q p log =
    (Returned (JStr (transport_prefix ++ desc)), log ++ [gemini_request key q p]).
Proof.
  intros Hkey Hup. unfold call_gemini. destruct key as [|k0 key']; [congruence|].
  unfold try_except_request, bind, requests_post. rewrite Hup. reflexivity.
Qed.

(** X6: without an API key a view that reaches the adapter answers 200 with
    the configuration sentence in place of the generated text, and makes no
    call. *)
Theorem views_without_key api_key request_b d_b s request_p d_p :
  api_key = None \/ api_key = Some [] ->
  request_dict request_b = Some d_b ->
  dict_get (u "keywords") d_b = Some (JStr s) ->
  strip s <> [] ->
  request_dict request_p = Some d_p ->
  (dict_get (u "role") d_p = None \/ exists r, dict_get (u "role") d_p = Some (JStr r)) ->
  api_bio api_key upstream request_b log =
    (Returned (JObj [ (u "text", JStr config_error) ], 200), log) /\
  api_project api_key upstream request_p log =
    (Returned (JObj [ (u "html", JStr config_error) ], 200), log).
Proof.
  intros Hkey Hb Hk Hs Hp Hr.
  assert (Hcall : forall q p,
             call_gemini api_key upstream q p log = (Returned (JStr config_error), log)).
  { intros q p. destruct Hkey as [-> | ->]; reflexivity. }
  split.
  - rewrite (api_bio_on_dict api_key upstream log request_b d_b Hb s)
      by (unfold py_get; rewrite Hk; reflexivity).
    destruct (strip s); [congruence|].
    unfold bind. rewrite Hcall. reflexivity.
  - assert (Hf : exists field,
               py_get (JObj d_p) (u "role") (JStr default_role) = Returned (JStr field)).
    { destruct Hr as [H | [r H]]; unfold py_get; rewrite H; eexists; reflexivity. }
    destruct Hf as [field Hf].
    rewrite (api_project_on_dict api_key upstream log request_p d_p Hp field Hf).
    unfold bind. rewrite Hcall. reflexivity.
Qed.

(** X12: a failure of the POST itself does not fail the request: both views
    answer 200 and carry the transport sentence where the generated text
    would be. *)
Theorem upstream_failure_is_http_200 key desc request_b d_b s request_p d_p r :
  key <> [] ->
  (forall args, upstream args = PostRaised desc) ->
  request_dict request_b = Some d_b ->
  dict_get (u "keywords") d_b = Some (JStr s) ->
  strip s <> [] ->
  request_dict request_p = Some d_p ->
  dict_get (u "role") d_p = Some (JStr r) ->
  api_bio (Some key) upstream request_b log =
    (Returned (JObj [ (u "text", JStr (transport_prefix ++ desc)) ], 200),
     log ++ [gemini_request key (u "Keywords: " ++ strip s) bio_system_prompt]) /\
  api_project (Some key) upstream request_p log =
    (Returned (JObj [ (u "html", JStr (transport_prefix ++ desc)) ], 200),
     log ++ [gemini_request key (u "Role: " ++ str_or (strip r) default_role)
                            project_system_prompt]).
Proof.
  intros Hkey Hup Hb Hk Hs Hp Hr.
  split.
  - rewrite (api_bio_on_dict (Some key) upstream log request_b d_b Hb s)
      by (unfold py_get; rewrite Hk; reflexivity).
    destruct (strip s) as [|c t] eqn:Es; [congruence|].
    unfold bind. rewrite (call_gemini_post_raised key _ _ desc Hkey (Hup _)).
    reflexivity.
  - rewrite (api_project_on_dict (Some key) upstream log request_p d_p Hp r)
      by (unfold py_get; rewrite Hr; reflexivity).
    unfold bind. rewrite (call_gemini_post_raised key _ _ desc Hkey (Hup _)).
    reflexivity.
Qed.

End ViewsAndUpstream.

(** ** Concrete runs of the further properties *)

Lemma strip_trims_both_ends_witness :
  exists a b,
    u "  hi there " = a ++ strip (u "  hi there ") ++ b /\
    forallb isspace a = true /\
    forallb isspace b = true /\
    (forall c t, strip (u "  hi there ") = c :: t -> isspace c = false) /\
    (forall t c, strip (u "  hi there ") = t ++ [c] -> isspace c = false).
Proof.
  exact (strip_trims_both_ends (u "  hi there ")).
Defined.

Lemma call_gemini_posts_once_witness :
  exists req,
    snd (call_gemini (Some demo_key) (mock_upstream (PostRaised (u "Read timed out.")))
           demo_query bio_system_prompt []) = [] ++ [req] /\
    post_url req = GEMINI_MODEL_URL /\
    post_params req = [ (u "key", demo_key) ] /\
    post_json req = gemini_payload demo_query bio_system_prompt /\
    post_timeout req = 30.
Proof.
  apply (call_gemini_posts_once (mock_upstream (PostRaised (u "Read timed out.")))
           demo_query bio_system_prompt [] demo_key).
  discriminate.
Defined.

Lemma call_gemini_raises_only_on_mistyped_body_witness :
  (AttributeError = AttributeError \/ AttributeError = TypeError \/
   AttributeError = KeyError) /\
  raise_for_status (json_response 200 (u "OK") null_content_body) = Returned tt /\
  spec_text_path null_content_body = None /\
  shape_break null_content_body = false.
Proof.
  apply (call_gemini_raises_only_on_mistyped_body
           (mock_upstream (Responded (json_response 200 (u "OK") null_content_body)))
           demo_query bio_system_prompt [] demo_key
           (json_response 200 (u "OK") null_content_body) null_content_body
           AttributeError).
  - reflexivity.
  - reflexivity.
  - reflexivity.
Defined.

Lemma call_gemini_non_json_body_witness :
  call_gemini (Some demo_key) (mock_upstream (Responded html_response))
    demo_query bio_system_prompt [] =
  (Returned (JStr (u "Error calling Gemini API: Expecting value: line 1 column 1 (char 0)")),
   [gemini_request demo_key demo_query bio_system_prompt]).
Proof.
  apply (call_gemini_non_json_body (mock_upstream (Responded html_response))
           demo_query bio_system_prompt [] demo_key html_response
           (u "Expecting value: line 1 column 1 (char 0)")).
  - discriminate.
  - reflexivity.
  - reflexivity.
  - reflexivity.
Defined.

Lemma api_bio_wraps_adapter_witness :
  api_bio (Some demo_key)
    (mock_upstream (Responded (json_response 200 (u "OK") engineer_body)))
    bio_request [] =
  (Returned (JObj [ (u "text", JStr (u "I am a systems engineer...")) ], 200),
   [gemini_request demo_key demo_query bio_system_prompt]).
Proof.
  rewrite (api_bio_wraps_adapter (Some demo_key)
             (mock_upstream (Responded (json_response 200 (u "OK") engineer_body))) []
             bio_request
             [ (u "keywords", JStr (u " golang, distributed systems ")) ]
             (u " golang, distributed systems ")
             eq_refl eq_refl ltac:(discriminate)).
  reflexivity.
Defined.

Lemma api_bio_400_iff_blank_witness :
  status (serve (fst (api_bio None (mock_upstream (PostRaised []))
                        (Body (JObj [ (u "keywords", JStr [32; 9; 160]%N) ])) []))) = 400 <->
  forallb isspace [32; 9; 160]%N = true.
Proof.
  apply (api_bio_400_iff_blank None (mock_upstream (PostRaised [])) []
           (Body (JObj [ (u "keywords", JStr [32; 9; 160]%N) ]))
           [ (u "keywords", JStr [32; 9; 160]%N) ]).
  - reflexivity.
  - reflexivity.
Defined.

Lemma views_without_key_witness :
  api_bio (Some []) (mock_upstream (Responded (json_response 200 (u "OK") hello_body)))
    bio_request [] =
    (Returned (JObj [ (u "text", JStr config_error) ], 200), []) /\
  api_project (Some []) (mock_upstream (Responded (json_response 200 (u "OK") hello_body)))
    (Body (JObj [])) [] =
    (Returned (JObj [ (u "html", JStr config_error) ], 200), []).
Proof.
  apply (views_without_key
           (mock_upstream (Responded (json_response 200 (u "OK") hello_body))) []
           (Some []) bio_request
           [ (u "keywords", JStr (u " golang, distributed systems ")) ]
           (u " golang, distributed systems ")
           (Body (JObj [])) []).
  - right; reflexivity.
  - reflexivity.
  - reflexivity.
  - discriminate.
  - reflexivity.
  - left; reflexivity.
Defined.

Lemma non_object_body_raises_witness :
  api_bio (Some demo_key) (mock_upstream (PostRaised []))
    (Body (JList [ JStr (u "keywords") ])) [] = (Raised AttributeError, []) /\
  api_project (Some demo_key) (mock_upstream (PostRaised []))
    (Body (JList [ JStr (u "keywords") ])) [] = (Raised AttributeError, []) /\
  status (serve (fst (api_bio (Some demo_key) (mock_upstream (PostRaised []))
                        (Body (JList [ JStr (u "keywords") ])) []))) = 500 /\
  status (serve (fst (api_project (Some demo_key) (mock_upstream (PostRaised []))
                        (Body (JList [ JStr (u "keywords") ])) []))) = 500.
Proof.
  apply (non_object_body_raises (Some demo_key) (mock_upstream (PostRaised [])) []
           (Body (JList [ JStr (u "keywords") ]))).
  reflexivity.
Defined.

Lemma api_bio_returned_responses_witness :
  (200 = 400 /\ JObj [ (u "text", JStr (u "I am a systems engineer...")) ] = no_keywords_body /\
   snd (api_bio (Some demo_key)
          (mock_upstream (Responded (json_response 200 (u "OK") engineer_body)))
          bio_request []) = []) \/
  (200 = 200 /\
   exists text keywords,
     JObj [ (u "text", JStr (u "I am a systems engineer...")) ] = JObj [ (u "text", text) ] /\
     keywords <> [] /\
     fst (call_gemini (Some demo_key)
            (mock_upstream (Responded (json_response 200 (u "OK") engineer_body)))
            (u "Keywords: " ++ keywords) bio_system_prompt []) = Returned text).
Proof.
  apply (api_bio_returned_responses (Some demo_key)
           (mock_upstream (Responded (json_response 200 (u "OK") engineer_body))) []
           bio_request).
  reflexivity.
Defined.

Lemma api_project_returned_responses_witness :
  200 = 200 /\
  exists html role,
    JObj [ (u "html", JStr config_error) ] = JObj [ (u "html", html) ] /\
    role <> [] /\
    fst (call_gemini None (mock_upstream (PostRaised []))
           (u "Role: " ++ role) project_system_prompt []) = Returned html.
Proof.
  apply (api_project_returned_responses None (mock_upstream (PostRaised [])) []
           (Body (JObj [ (u "role", JStr (u "  ")) ]))).
  reflexivity.
Defined.

Lemma upstream_failure_is_http_200_witness :
  api_bio (Some demo_key) (mock_upstream (PostRaised (u "Read timed out.")))
    bio_request [] =
    (Returned (JObj [ (u "text", JStr (u "Error calling Gemini API: Read timed out.")) ], 200),
     [gemini_request demo_key demo_query bio_system_prompt]) /\
  api_project (Some demo_key) (mock_upstream (PostRaised (u "Read timed out.")))
    (Body (JObj [ (u "role", JStr (u "  ")) ])) [] =
    (Returned (JObj [ (u "html", JStr (u "Error calling Gemini API: Read timed out.")) ], 200),
     [gemini_request demo_key (u "Role: AI Software Engineer") project_system_prompt]).
Proof.
  apply (upstream_failure_is_http_200
           (mock_upstream (PostRaised (u "Read timed out."))) []
           demo_key (u "Read timed out.") bio_request
           [ (u "keywords", JStr (u " golang, distributed systems ")) ]
           (u " golang, distributed systems ")
           (Body (JObj [ (u "role", JStr (u "  ")) ]))
           [ (u "role", JStr (u "  ")) ] (u "  ")).
  - discriminate.
  - reflexivity.
  - reflexivity.
  - reflexivity.
  - discriminate.
  - reflexivity.
  - reflexivity.
Defined.

Lemma api_bio_ignores_outer_whitespace_witness :
  api_bio None (mock_upstream (PostRaised [])) bio_request [] =
  api_bio None (mock_upstream (PostRaised []))
    (Body (JObj [ (u "keywords", JStr (u "golang, distributed systems")) ])) [].
Proof.
  apply (api_bio_ignores_outer_whitespace None (mock_upstream (PostRaised [])) []
           bio_request
           (Body (JObj [ (u "keywords", JStr (u "golang, distributed systems")) ]))
           [ (u "keywords", JStr (u " golang, distributed systems ")) ]
           [ (u "keywords", JStr (u "golang, distributed systems")) ]
           (u " golang, distributed systems ")).
  - reflexivity.
  - reflexivity.
  - reflexivity.
  - reflexivity.
Defined.

Lemma api_project_ignores_outer_whitespace_witness :
  api_project None (mock_upstream (PostRaised []))
    (Body (JObj [ (u "role", JStr (u "  Data Engineer ")) ])) [] =
  api_project None (mock_upstream (PostRaised []))
    (Body (JObj [ (u "role", JStr (u "Data Engineer")) ])) [].
Proof.
  apply (api_project_ignores_outer_whitespace None (mock_upstream (PostRaised [])) []
           (Body (JObj [ (u "role", JStr (u "  Data Engineer ")) ]))
           (Body (JObj [ (u "role", JStr (u "Data Engineer")) ]))
           [ (u "role", JStr (u "  Data Engineer ")) ]
           [ (u "role", JStr (u "Data Engineer")) ]
           (u "  Data Engineer ")).
  - reflexivity.
  - reflexivity.
  - reflexivity.
  - reflexivity.
Defined.
